(** * BlueZ input plugin: the HID connection server (input/server.c)

    A shallow embedding of [input/server.c]: the two L2CAP listeners, the
    accept callback, the two-tier authorization of interrupt-channel
    connections and the start/stop entry points.

    The file is organised as follows.
    - [Data]: addresses, D-Bus errors and messages, the module's globals.
    - [Trace]: the calls the module makes into its collaborators, and the
      small state-and-trace monad the C functions are written in.
    - [Extern]: what the collaborators answer.
    - [Server]: the functions of server.c, in source order.
    - [Loop]: which continuations the collaborators hold after a handler ran.
    - Theorems. *)

From Stdlib Require Import ZArith List String Bool Lia.
From Stdlib Require Strings.Byte.
Import ListNotations.

Local Open Scope Z_scope.

(* ------------------------------------------------------------------ *)
(** * Data *)

(** C pointers are addresses; [NULL] is address 0 and [!p] tests for it. *)
Definition ptr : Type := Z.
Definition NULL : ptr := 0.
Definition is_null (p : ptr) : bool := p =? NULL.

(** [bdaddr_t] (bluetooth/bluetooth.h, a header outside this module):
    [struct { uint8_t b[6]; }], six bytes held by value. *)
Record bdaddr_t : Type := mk_bdaddr {
  b0 : Byte.byte; b1 : Byte.byte; b2 : Byte.byte;
  b3 : Byte.byte; b4 : Byte.byte; b5 : Byte.byte
}.

Definition BDADDR_ANY : bdaddr_t :=
  mk_bdaddr Byte.x00 Byte.x00 Byte.x00 Byte.x00 Byte.x00 Byte.x00.

(** [struct authorization_data { bdaddr_t src; bdaddr_t dst; }].
    [g_new0] followed by the two [bacpy] builds the value. *)
Record authorization_data : Type := mk_auth {
  auth_src : bdaddr_t;
  auth_dst : bdaddr_t
}.

(** The two PSMs of bluetooth/hidp.h and the two errno values of errno.h
    (headers outside this module; the values are the ones of Linux). *)
Definition L2CAP_PSM_HIDP_CTRL : Z := 0x11.
Definition L2CAP_PSM_HIDP_INTR : Z := 0x13.
Definition ENOMEM : Z := 12.
Definition EACCES : Z := 13.

(** [GUINT_TO_POINTER] / [GPOINTER_TO_UINT] of GLib: the pointer is cut to
    32 bits, and the assignment to [int psm] reads these as signed. *)
Definition GUINT_TO_POINTER (u : Z) : ptr := u mod 2 ^ 32.
Definition GPOINTER_TO_UINT (p : ptr) : Z := p mod 2 ^ 32.
Definition int_of_uint (u : Z) : Z := if u <? 2 ^ 31 then u else u - 2 ^ 32.

Definition HID_UUID : string := "00001124-0000-1000-8000-00805f9b34fb".
Definition DBUS_ERROR_NO_REPLY : string := "org.freedesktop.DBus.Error.NoReply".

(** A [DBusError] that is set: its name and its message. *)
Record DBusError : Type := mk_derr {
  derr_name : string;
  derr_message : string
}.

Definition dbus_error_has_name (e : DBusError) (n : string) : bool :=
  String.eqb (derr_name e) n.

(** D-Bus messages, by value: the method calls this module builds, and the
    two kinds of reply a pending call can be completed with. *)
Inductive DBusMessage : Type :=
| MethodCall (destination path iface member : string) (args : list string)
| MethodReturn
| ErrorMessage (e : DBusError).

(** [dbus_message_append_args] with string arguments only. *)
Definition dbus_message_append_args (m : DBusMessage) (a : list string)
  : DBusMessage :=
  match m with
  | MethodCall d p i mem args => MethodCall d p i mem (args ++ a)
  | other => other
  end.

(** [dbus_set_error_from_message]: [Some e] (the C function returns TRUE and
    fills [derr]) exactly for an error message. *)
Definition dbus_set_error_from_message (reply : DBusMessage)
  : option DBusError :=
  match reply with
  | ErrorMessage e => Some e
  | _ => None
  end.

(** The three file-scope variables of server.c. *)
Record globals : Type := mk_globals {
  connection : ptr;
  ctrl_io : ptr;
  intr_io : ptr
}.

(** Their static initialisers: all three are [NULL]. *)
Definition initial_globals : globals := mk_globals NULL NULL NULL.

Definition set_connection (c : ptr) (g : globals) : globals :=
  mk_globals c (ctrl_io g) (intr_io g).
Definition set_ctrl_io (c : ptr) (g : globals) : globals :=
  mk_globals (connection g) c (intr_io g).
Definition set_intr_io (c : ptr) (g : globals) : globals :=
  mk_globals (connection g) (ctrl_io g) c.

(* ------------------------------------------------------------------ *)
(** * Trace *)

(** The callbacks server.c hands out as function pointers. *)
Inductive callback : Type :=
| CB_connect_event_cb
| CB_auth_callback
| CB_authorization_callback.

(** One constructor per function server.c calls outside itself, with the
    arguments of the call.  Log calls keep their format string only. *)
Inductive event : Type :=
| Ev_error (fmt : string)
| Ev_debug (fmt : string)
| Ev_g_io_channel_unix_get_fd (chan : ptr)
| Ev_input_device_set_channel (src dst : bdaddr_t) (psm sk : Z)
| Ev_input_device_connadd (src dst : bdaddr_t)
| Ev_input_device_close_channels (src dst : bdaddr_t)
| Ev_write (fd : Z) (buf : list Byte.byte)
| Ev_close (fd : Z)
| Ev_service_req_auth (src dst : bdaddr_t) (uuid : string)
    (cb : callback) (user_data : authorization_data)
| Ev_service_cancel_auth (dst : bdaddr_t)
| Ev_dbus_message_new_method_call (destination path iface member : string)
| Ev_dbus_connection_send_with_reply (conn : ptr) (msg : DBusMessage)
| Ev_dbus_pending_call_set_notify (cb : callback)
    (user_data : authorization_data)
| Ev_dbus_pending_call_unref
| Ev_dbus_pending_call_steal_reply
| Ev_dbus_message_unref (msg : DBusMessage)
| Ev_dbus_error_free (e : DBusError)
| Ev_send_message_and_unref (conn : ptr) (msg : DBusMessage)
| Ev_g_free (user_data : authorization_data)
| Ev_bt_l2cap_listen (src : bdaddr_t) (psm : Z) (mtu flags : Z)
    (cb : callback) (data : ptr)
| Ev_g_io_channel_set_close_on_unref (chan : ptr) (do_close : bool)
| Ev_g_io_channel_unref (chan : ptr).

(** A C function of this module: it reads and writes the globals, makes
    calls, and returns. *)
Definition M (A : Type) : Type := globals -> A * globals * list event.

Definition ret {A} (a : A) : M A := fun g => (a, g, []).

Definition bind {A B} (m : M A) (k : A -> M B) : M B :=
  fun g =>
    let '(a, g1, t1) := m g in
    let '(r, g2, t2) := k a g1 in
    (r, g2, t1 ++ t2).

Definition call (e : event) : M unit := fun g => (tt, g, [e]).
Definition read {A} (f : globals -> A) : M A := fun g => (f g, g, []).
Definition assign (f : globals -> globals) : M unit :=
  fun g => (tt, f g, []).

Declare Scope server_scope.
Delimit Scope server_scope with server.
Notation "x <- m ;; k" := (bind m (fun x => k))
  (at level 61, m at next level, right associativity) : server_scope.
Notation "m ;; k" := (bind m (fun _ => k))
  (at level 61, right associativity) : server_scope.
Local Open Scope server_scope.

(** Projections of a finished run. *)
Definition result {A} (r : A * globals * list event) : A := fst (fst r).
Definition final {A} (r : A * globals * list event) : globals := snd (fst r).
Definition trace {A} (r : A * globals * list event) : list event := snd r.

(* ------------------------------------------------------------------ *)
(** * Extern *)

(** What the collaborators answer.  Each is a function of the arguments of
    the call; no handler of server.c repeats a call with the same arguments,
    and every theorem below takes a fresh [extern] per handler run. *)
Record extern : Type := mk_extern {
  (** [ba2str] (lib/bluetooth.c): the printed form of an address. *)
  env_ba2str : bdaddr_t -> string;
  env_g_io_channel_unix_get_fd : ptr -> Z;
  (** [input_device_set_channel] (input/device.c): negative on failure. *)
  env_input_device_set_channel : bdaddr_t -> bdaddr_t -> Z -> Z -> Z;
  (** [service_req_auth]: negative when the request was not taken. *)
  env_service_req_auth : bdaddr_t -> bdaddr_t -> string -> Z;
  (** whether [dbus_message_new_method_call] for this member gets memory *)
  env_dbus_message_alloc : string -> bool;
  (** [dbus_connection_send_with_reply]: the dbus_bool_t it returns *)
  env_dbus_connection_send_with_reply : ptr -> DBusMessage -> bool;
  (** [bt_l2cap_listen] (common/glib-helper.c): the channel, or NULL *)
  env_bt_l2cap_listen : bdaddr_t -> Z -> ptr;
  (** [write(2)]: its result, which the module ignores *)
  env_write : Z -> list Byte.byte -> Z
}.

Section Calls.
Variable E : extern.

Definition error (fmt : string) : M unit := call (Ev_error fmt).
Definition debug (fmt : string) : M unit := call (Ev_debug fmt).

Definition g_io_channel_unix_get_fd (chan : ptr) : M Z :=
  call (Ev_g_io_channel_unix_get_fd chan) ;;
  ret (env_g_io_channel_unix_get_fd E chan).

Definition input_device_set_channel (src dst : bdaddr_t) (psm sk : Z)
  : M Z :=
  call (Ev_input_device_set_channel src dst psm sk) ;;
  ret (env_input_device_set_channel E src dst psm sk).

Definition input_device_connadd (src dst : bdaddr_t) : M unit :=
  call (Ev_input_device_connadd src dst).

Definition input_device_close_channels (src dst : bdaddr_t) : M unit :=
  call (Ev_input_device_close_channels src dst).

Definition write (fd : Z) (buf : list Byte.byte) : M Z :=
  call (Ev_write fd buf) ;; ret (env_write E fd buf).

Definition close (fd : Z) : M unit := call (Ev_close fd).

Definition service_req_auth (src dst : bdaddr_t) (uuid : string)
    (cb : callback) (user_data : authorization_data) : M Z :=
  call (Ev_service_req_auth src dst uuid cb user_data) ;;
  ret (env_service_req_auth E src dst uuid).

Definition service_cancel_auth (dst : bdaddr_t) : M unit :=
  call (Ev_service_cancel_auth dst).

(** [None] is the NULL the C function returns when out of memory. *)
Definition dbus_message_new_method_call
    (destination path iface member : string) : M (option DBusMessage) :=
  call (Ev_dbus_message_new_method_call destination path iface member) ;;
  ret (if env_dbus_message_alloc E member
       then Some (MethodCall destination path iface member [])
       else None).

Definition dbus_connection_send_with_reply (conn : ptr) (msg : DBusMessage)
  : M bool :=
  call (Ev_dbus_connection_send_with_reply conn msg) ;;
  ret (env_dbus_connection_send_with_reply E conn msg).

Definition dbus_pending_call_set_notify (cb : callback)
    (user_data : authorization_data) : M unit :=
  call (Ev_dbus_pending_call_set_notify cb user_data).

Definition dbus_pending_call_unref : M unit :=
  call Ev_dbus_pending_call_unref.

Definition dbus_message_unref (msg : DBusMessage) : M unit :=
  call (Ev_dbus_message_unref msg).

Definition dbus_error_free (e : DBusError) : M unit :=
  call (Ev_dbus_error_free e).

Definition send_message_and_unref (conn : ptr) (msg : DBusMessage)
  : M unit :=
  call (Ev_send_message_and_unref conn msg).

Definition g_free (user_data : authorization_data) : M unit :=
  call (Ev_g_free user_data).

Definition bt_l2cap_listen (src : bdaddr_t) (psm mtu flags : Z)
    (cb : callback) (data : ptr) : M ptr :=
  call (Ev_bt_l2cap_listen src psm mtu flags cb data) ;;
  ret (env_bt_l2cap_listen E src psm).

Definition g_io_channel_set_close_on_unref (chan : ptr) (do_close : bool)
  : M unit :=
  call (Ev_g_io_channel_set_close_on_unref chan do_close).

Definition g_io_channel_unref (chan : ptr) : M unit :=
  call (Ev_g_io_channel_unref chan).
End Calls.

(* ------------------------------------------------------------------ *)
(** * Server: the functions of server.c *)

Section Server.
Variable E : extern.

(** [static void cancel_authorization(const char *addr)] *)
Definition cancel_authorization (addr : string) : M unit :=
  msg <- dbus_message_new_method_call E "org.bluez" "/org/bluez"
           "org.bluez.Database" "CancelAuthorizationRequest" ;;
  match msg with
  | None => error "Unable to allocate new method call"
  | Some msg =>
      let msg := dbus_message_append_args msg [addr; HID_UUID] in
      conn <- read connection ;;
      send_message_and_unref conn msg
  end.

(** [static void authorization_callback(DBusPendingCall *pcall, void *data)];
    [reply] is the message [dbus_pending_call_steal_reply] hands over. *)
Definition authorization_callback (reply : DBusMessage)
    (auth : authorization_data) : M unit :=
  call Ev_dbus_pending_call_steal_reply ;;
  match dbus_set_error_from_message reply with
  | None =>
      dbus_message_unref reply ;;
      input_device_connadd (auth_src auth) (auth_dst auth)
  | Some derr =>
      error "Authorization denied: %s" ;;
      (if dbus_error_has_name derr DBUS_ERROR_NO_REPLY
       then cancel_authorization (env_ba2str E (auth_dst auth))
       else ret tt) ;;
      input_device_close_channels (auth_src auth) (auth_dst auth) ;;
      dbus_error_free derr ;;
      dbus_message_unref reply
  end.

(** [static void auth_callback(DBusError *derr, void *user_data)];
    [None] is a NULL [derr]. *)
Definition auth_callback (derr : option DBusError)
    (auth : authorization_data) : M unit :=
  match derr with
  | Some derr =>
      error "Access denied: %s" ;;
      (if dbus_error_has_name derr DBUS_ERROR_NO_REPLY
       then service_cancel_auth (auth_dst auth)
       else ret tt) ;;
      input_device_close_channels (auth_src auth) (auth_dst auth)
  | None =>
      input_device_connadd (auth_src auth) (auth_dst auth)
  end ;;
  g_free auth.

(** [static int authorize_device(bdaddr_t *src, bdaddr_t *dst)] *)
Definition authorize_device (src dst : bdaddr_t) : M Z :=
  let auth := mk_auth src dst in
  retval <- service_req_auth E src dst HID_UUID CB_auth_callback auth ;;
  if retval <? 0 then
    (* fallback: *)
    msg <- dbus_message_new_method_call E "org.bluez" "/org/bluez"
             "org.bluez.Database" "RequestAuthorization" ;;
    match msg with
    | None =>
        error "Unable to allocate new RequestAuthorization method call" ;;
        ret (- ENOMEM)
    | Some msg =>
        let msg := dbus_message_append_args msg [env_ba2str E dst; HID_UUID] in
        conn <- read connection ;;
        sent <- dbus_connection_send_with_reply E conn msg ;;
        if negb sent then
          ret (- EACCES)
        else
          dbus_pending_call_set_notify CB_authorization_callback auth ;;
          dbus_pending_call_unref ;;
          dbus_message_unref msg ;;
          ret 0
    end
  else
    ret retval.

(** [static void connect_event_cb(GIOChannel *chan, int err,
      const bdaddr_t *src, const bdaddr_t *dst, gpointer data)] *)
Definition connect_event_cb (chan : ptr) (err : Z) (src dst : bdaddr_t)
    (data : ptr) : M unit :=
  let psm := int_of_uint (GPOINTER_TO_UINT data) in
  if err <? 0 then
    error "accept: %s (%d)"
  else
    sk <- g_io_channel_unix_get_fd E chan ;;
    debug "Incoming connection on PSM %d" ;;
    r <- input_device_set_channel E src dst psm sk ;;
    if r <? 0 then
      (* Send unplug virtual cable to unknown devices *)
      (if psm =? L2CAP_PSM_HIDP_CTRL
       then _ <- write E sk [Byte.x15] ;; ret tt
       else ret tt) ;;
      close sk
    else
      if psm =? L2CAP_PSM_HIDP_INTR then
        rv <- authorize_device src dst ;;
        if rv <? 0 then input_device_close_channels src dst else ret tt
      else
        ret tt.

(** [int server_start(DBusConnection *conn)] *)
Definition server_start (conn : ptr) : M Z :=
  c <- bt_l2cap_listen E BDADDR_ANY L2CAP_PSM_HIDP_CTRL 0 0
         CB_connect_event_cb (GUINT_TO_POINTER L2CAP_PSM_HIDP_CTRL) ;;
  assign (set_ctrl_io c) ;;
  if is_null c then
    error "Failed to listen on control channel" ;;
    ret (-1)
  else
    g_io_channel_set_close_on_unref c true ;;
    i <- bt_l2cap_listen E BDADDR_ANY L2CAP_PSM_HIDP_INTR 0 0
           CB_connect_event_cb (GUINT_TO_POINTER L2CAP_PSM_HIDP_INTR) ;;
    assign (set_intr_io i) ;;
    (if is_null i then
       error "Failed to listen on interrupt channel" ;;
       c' <- read ctrl_io ;;
       g_io_channel_unref c' ;;
       assign (set_ctrl_io NULL)
     else ret tt) ;;
    i' <- read intr_io ;;
    g_io_channel_set_close_on_unref i' true ;;
    assign (set_connection conn) ;;
    ret 0.

(** [void server_stop(void)] *)
Definition server_stop : M unit :=
  i <- read intr_io ;;
  (if is_null i then ret tt else g_io_channel_unref i) ;;
  c <- read ctrl_io ;;
  (if is_null c then ret tt else g_io_channel_unref c).
End Server.

Arguments cancel_authorization : simpl never.
Arguments authorize_device : simpl never.

(* ------------------------------------------------------------------ *)
(** * Loop: continuations held by the collaborators *)

(** A continuation in flight: the callback and the [user_data] it was
    registered with. *)
Definition continuation : Type := (callback * authorization_data)%type.

(** Which continuation a call leaves behind.  [service_req_auth] keeps the
    callback only when it takes the request (a return code >= 0);
    [dbus_pending_call_set_notify] always attaches it to the pending call.
    No other call of server.c takes a continuation for an authorization. *)
Definition registers (E : extern) (e : event) : list continuation :=
  match e with
  | Ev_service_req_auth src dst uuid cb user_data =>
      if env_service_req_auth E src dst uuid <? 0 then []
      else [(cb, user_data)]
  | Ev_dbus_pending_call_set_notify cb user_data => [(cb, user_data)]
  | _ => []
  end.

Definition in_flight (E : extern) (t : list event) : list continuation :=
  flat_map (registers E) t.

(** The event loop firing a continuation: the primary tier calls back with
    [derr], the fallback tier with the [reply] of the pending call. *)
Definition resume (E : extern) (k : continuation)
    (derr : option DBusError) (reply : DBusMessage) : M unit :=
  match fst k with
  | CB_auth_callback => auth_callback derr (snd k)
  | CB_authorization_callback => authorization_callback E reply (snd k)
  | CB_connect_event_cb => ret tt
  end.

(** Every continuation of [ks] fires once, with the globals as they are
    by then. *)
Definition settle (E : extern) (derr : option DBusError)
    (reply : DBusMessage) (g : globals) (ks : list continuation)
  : list event :=
  flat_map (fun k => trace (resume E k derr reply g)) ks.

(** A connection accepted on the interrupt listener, followed to its end:
    the accept callback under collaborators [E] and globals [g], then the
    continuations it left in flight, fired under [E'] and [g']. *)
Definition interrupt_connection (E E' : extern) (chan : ptr) (err : Z)
    (src dst : bdaddr_t) (derr : option DBusError) (reply : DBusMessage)
    (g g' : globals) : list event :=
  let t := trace (connect_event_cb E chan err src dst
                    (GUINT_TO_POINTER L2CAP_PSM_HIDP_INTR) g) in
  t ++ settle E' derr reply g' (in_flight E t).

(* ------------------------------------------------------------------ *)
(** * Observations on a trace *)

(** How a connection ends: the registry completes it, the registry closes
    the channels of the pair, or the raw socket is closed. *)
Inductive outcome : Type :=
| ConnAdded (src dst : bdaddr_t)
| ChannelsClosed (src dst : bdaddr_t)
| SocketClosed (fd : Z).

Definition outcome_of (e : event) : list outcome :=
  match e with
  | Ev_input_device_connadd src dst => [ConnAdded src dst]
  | Ev_input_device_close_channels src dst => [ChannelsClosed src dst]
  | Ev_close fd => [SocketClosed fd]
  | _ => []
  end.

Definition outcomes (t : list event) : list outcome :=
  flat_map outcome_of t.

(** A cancellation of an authorization request: [service_cancel_auth] on the
    primary tier, a sent [CancelAuthorizationRequest] on the fallback tier. *)
Inductive cancellation : Type :=
| CancelPrimary (dst : bdaddr_t)
| CancelRemote (conn : ptr) (args : list string).

Definition cancellation_of (e : event) : list cancellation :=
  match e with
  | Ev_service_cancel_auth dst => [CancelPrimary dst]
  | Ev_send_message_and_unref conn (MethodCall _ _ _ member args) =>
      if String.eqb member "CancelAuthorizationRequest"
      then [CancelRemote conn args] else []
  | _ => []
  end.

Definition cancellations (t : list event) : list cancellation :=
  flat_map cancellation_of t.

(** The calls on listener channels. *)
Definition channel_op (e : event) : bool :=
  match e with
  | Ev_g_io_channel_set_close_on_unref _ _ => true
  | Ev_g_io_channel_unref _ => true
  | _ => false
  end.

(** The message [authorize_device] sends on the fallback tier. *)
Definition RequestAuthorization (E : extern) (dst : bdaddr_t) : DBusMessage :=
  MethodCall "org.bluez" "/org/bluez" "org.bluez.Database"
    "RequestAuthorization" [env_ba2str E dst; HID_UUID].

(* ------------------------------------------------------------------ *)
(** * Sample collaborators and inputs *)

Module Sample.
Local Open Scope string_scope.

Definition hex_digit (n : N) : string :=
  String.substring (N.to_nat n) 1 "0123456789ABCDEF".

Definition hex_byte (x : Byte.byte) : string :=
  let n := Byte.to_N x in
  hex_digit (n / 16) ++ hex_digit (n mod 16).

(** An address printed the way lib/bluetooth.c does: highest byte first. *)
Definition ba2str (a : bdaddr_t) : string :=
  hex_byte (b5 a) ++ ":" ++ hex_byte (b4 a) ++ ":" ++ hex_byte (b3 a) ++ ":"
  ++ hex_byte (b2 a) ++ ":" ++ hex_byte (b1 a) ++ ":" ++ hex_byte (b0 a).

Definition src : bdaddr_t :=
  mk_bdaddr Byte.xaa Byte.xaa Byte.xaa Byte.xaa Byte.xaa Byte.xaa.
Definition dst : bdaddr_t :=
  mk_bdaddr Byte.xbb Byte.xbb Byte.xbb Byte.xbb Byte.xbb Byte.xbb.

Definition no_reply : DBusError :=
  mk_derr DBUS_ERROR_NO_REPLY "Did not receive a reply".
Definition rejected : DBusError :=
  mk_derr "org.bluez.Error.Rejected" "Rejected".

(** Collaborators given by the answers that vary between scenarios:
    registration, primary dispatch, message allocation, sending, and the
    two listeners. *)
Definition env (set_channel req_auth : Z) (alloc sent : bool)
    (ctrl intr : ptr) : extern :=
  {| env_ba2str := ba2str;
     env_g_io_channel_unix_get_fd := fun chan => chan - 0x7000;
     env_input_device_set_channel := fun _ _ _ _ => set_channel;
     env_service_req_auth := fun _ _ _ => req_auth;
     env_dbus_message_alloc := fun _ => alloc;
     env_dbus_connection_send_with_reply := fun _ _ => sent;
     env_bt_l2cap_listen := fun _ psm =>
       if (psm =? L2CAP_PSM_HIDP_CTRL)%Z then ctrl else intr;
     env_write := fun _ buf => Z.of_nat (List.length buf) |}.

(** Everything works. *)
Definition healthy : extern := env 0 0 true true 0x1000 0x2000.
(** The primary tier does not take the request; the fallback is sent. *)
Definition primary_down : extern := env 0 (-1) true true 0x1000 0x2000.
(** Neither tier can be reached. *)
Definition bus_down : extern := env 0 (-1) true false 0x1000 0x2000.
(** No memory for D-Bus messages. *)
Definition no_memory : extern := env 0 (-1) false true 0x1000 0x2000.
(** The registry does not know the device. *)
Definition unknown_device : extern := env (-1) 0 true true 0x1000 0x2000.
(** The interrupt PSM cannot be listened on. *)
Definition intr_busy : extern := env 0 0 true true 0x1000 NULL.

Definition chan : ptr := 0x7007.
Definition conn : ptr := 0x5000.
Definition started : globals := mk_globals conn 0x1000 0x2000.
End Sample.

Module Scenario.
Import Sample.

(** The pair of the running examples, as captured by [authorize_device]. *)
Definition auth : authorization_data := mk_auth src dst.

(** The globals after a start that opened both listeners. *)
Definition after_start : globals :=
  final (server_start healthy conn initial_globals).

(** ... and after the stop that follows it. *)
Definition after_stop : globals := final (server_stop after_start).

(** [data] of the two listeners. *)
Definition ctrl_data : ptr := GUINT_TO_POINTER L2CAP_PSM_HIDP_CTRL.
Definition intr_data : ptr := GUINT_TO_POINTER L2CAP_PSM_HIDP_INTR.
End Scenario.

(** Whether a continuation's result is the "no reply" error. *)
Definition is_no_reply (derr : option DBusError) : bool :=
  match derr with
  | Some e => dbus_error_has_name e DBUS_ERROR_NO_REPLY
  | None => false
  end.

(** Calls on the raw socket of an accepted connection. *)
Definition socket_op (e : event) : bool :=
  match e with
  | Ev_write _ _ => true
  | Ev_close _ => true
  | _ => false
  end.

(** Calls that belong to the authorization of a pair: the requests and
    cancellations on either tier and the bookkeeping around them. *)
Definition broker_call (e : event) : bool :=
  match e with
  | Ev_service_req_auth _ _ _ _ _ => true
  | Ev_service_cancel_auth _ => true
  | Ev_dbus_message_new_method_call _ _ _ _ => true
  | Ev_dbus_connection_send_with_reply _ _ => true
  | Ev_dbus_pending_call_set_notify _ _ => true
  | Ev_dbus_pending_call_unref => true
  | Ev_dbus_pending_call_steal_reply => true
  | Ev_dbus_message_unref _ => true
  | Ev_dbus_error_free _ => true
  | Ev_send_message_and_unref _ _ => true
  | Ev_g_free _ => true
  | _ => false
  end.

(** Calls into libdbus and the D-Bus helper. *)
Definition dbus_call (e : event) : bool :=
  match e with
  | Ev_dbus_message_new_method_call _ _ _ _ => true
  | Ev_dbus_connection_send_with_reply _ _ => true
  | Ev_dbus_pending_call_set_notify _ _ => true
  | Ev_dbus_pending_call_unref => true
  | Ev_dbus_pending_call_steal_reply => true
  | Ev_dbus_message_unref _ => true
  | Ev_dbus_error_free _ => true
  | Ev_send_message_and_unref _ _ => true
  | _ => false
  end.

(** The connection handles messages are sent on. *)
Definition sent_on (e : event) : list ptr :=
  match e with
  | Ev_dbus_connection_send_with_reply conn _ => [conn]
  | Ev_send_message_and_unref conn _ => [conn]
  | _ => []
  end.

Definition bus_handles (t : list event) : list ptr := flat_map sent_on t.

(** The listener channels a run obtained (the non-NULL answers to its
    [bt_l2cap_listen] calls) and the channels it released. *)
Definition opened_by (E : extern) (e : event) : list ptr :=
  match e with
  | Ev_bt_l2cap_listen src psm _ _ _ _ =>
      if is_null (env_bt_l2cap_listen E src psm) then []
      else [env_bt_l2cap_listen E src psm]
  | _ => []
  end.

Definition opened (E : extern) (t : list event) : list ptr :=
  flat_map (opened_by E) t.

Definition released_by (e : event) : list ptr :=
  match e with
  | Ev_g_io_channel_unref chan => [chan]
  | _ => []
  end.

Definition released (t : list event) : list ptr := flat_map released_by t.

(** What a run hands back to the allocator: [authorization_data] through
    [g_free], messages through [dbus_message_unref], errors through
    [dbus_error_free]. *)
Definition freed_by (e : event) : list authorization_data :=
  match e with
  | Ev_g_free a => [a]
  | _ => []
  end.

Definition freed (t : list event) : list authorization_data :=
  flat_map freed_by t.

Definition unreffed_by (e : event) : list DBusMessage :=
  match e with
  | Ev_dbus_message_unref m => [m]
  | _ => []
  end.

Definition unreffed (t : list event) : list DBusMessage :=
  flat_map unreffed_by t.

Definition error_freed_by (e : event) : list DBusError :=
  match e with
  | Ev_dbus_error_free d => [d]
  | _ => []
  end.

Definition error_freed (t : list event) : list DBusError :=
  flat_map error_freed_by t.

(** The calls that decide a pair's fate or cancel its request. *)
Definition decisive (e : event) : bool :=
  match cancellation_of e, outcome_of e with
  | [], [] => false
  | _, _ => true
  end.

(** The [CancelAuthorizationRequest] call for a printed address. *)
Definition CancelAuthorizationRequest (addr : string) : DBusMessage :=
  MethodCall "org.bluez" "/org/bluez" "org.bluez.Database"
    "CancelAuthorizationRequest" [addr; HID_UUID].

(** A listener is set up consistently when its accept callback is
    [connect_event_cb] and the [data] it passes decodes, the way
    [connect_event_cb] decodes it, to the PSM it listens on. *)
Definition listens_with_own_psm (e : event) : Prop :=
  match e with
  | Ev_bt_l2cap_listen _ psm _ _ cb data =>
      cb = CB_connect_event_cb /\ int_of_uint (GPOINTER_TO_UINT data) = psm
  | _ => True
  end.

(* ------------------------------------------------------------------ *)
(** * Running the functions: one equation per function *)

Ltac run_monad :=
  unfold bind, ret, call, read, assign, result, final, trace; cbn.

Ltac run_calls :=
  unfold error, debug, g_io_channel_unix_get_fd, input_device_set_channel,
    input_device_connadd, input_device_close_channels, write, close,
    service_req_auth, service_cancel_auth, dbus_message_new_method_call,
    dbus_connection_send_with_reply, dbus_pending_call_set_notify,
    dbus_pending_call_unref, dbus_message_unref, dbus_error_free,
    send_message_and_unref, g_free, bt_l2cap_listen,
    g_io_channel_set_close_on_unref, g_io_channel_unref;
  run_monad.

Lemma psm_of_ctrl_data :
  int_of_uint (GPOINTER_TO_UINT (GUINT_TO_POINTER L2CAP_PSM_HIDP_CTRL))
  = L2CAP_PSM_HIDP_CTRL.
Proof. reflexivity. Qed.

Lemma psm_of_intr_data :
  int_of_uint (GPOINTER_TO_UINT (GUINT_TO_POINTER L2CAP_PSM_HIDP_INTR))
  = L2CAP_PSM_HIDP_INTR.
Proof. reflexivity. Qed.

Lemma cancel_authorization_run (E : extern) (addr : string) (g : globals) :
  cancel_authorization E addr g =
  (tt, g,
   Ev_dbus_message_new_method_call "org.bluez" "/org/bluez"
     "org.bluez.Database" "CancelAuthorizationRequest"
   :: (if env_dbus_message_alloc E "CancelAuthorizationRequest"
       then [Ev_send_message_and_unref (connection g)
               (MethodCall "org.bluez" "/org/bluez" "org.bluez.Database"
                  "CancelAuthorizationRequest" [addr; HID_UUID])]
       else [Ev_error "Unable to allocate new method call"])).
Proof.
  unfold cancel_authorization. run_calls.
  destruct (env_dbus_message_alloc E _); reflexivity.
Qed.

Lemma auth_callback_run (derr : option DBusError) (auth : authorization_data)
    (g : globals) :
  auth_callback derr auth g =
  (tt, g,
   match derr with
   | Some e =>
       Ev_error "Access denied: %s"
       :: (if dbus_error_has_name e DBUS_ERROR_NO_REPLY
           then [Ev_service_cancel_auth (auth_dst auth)] else [])
       ++ [Ev_input_device_close_channels (auth_src auth) (auth_dst auth);
           Ev_g_free auth]
   | None =>
       [Ev_input_device_connadd (auth_src auth) (auth_dst auth);
        Ev_g_free auth]
   end).
Proof.
  unfold auth_callback. destruct derr as [e|]; run_calls; [|reflexivity].
  destruct (dbus_error_has_name e _); reflexivity.
Qed.

Lemma authorization_callback_run (E : extern) (reply : DBusMessage)
    (auth : authorization_data) (g : globals) :
  authorization_callback E reply auth g =
  (tt, g,
   Ev_dbus_pending_call_steal_reply
   :: match dbus_set_error_from_message reply with
      | None =>
          [Ev_dbus_message_unref reply;
           Ev_input_device_connadd (auth_src auth) (auth_dst auth)]
      | Some e =>
          Ev_error "Authorization denied: %s"
          :: (if dbus_error_has_name e DBUS_ERROR_NO_REPLY
              then trace (cancel_authorization E
                            (env_ba2str E (auth_dst auth)) g)
              else [])
          ++ [Ev_input_device_close_channels (auth_src auth) (auth_dst auth);
              Ev_dbus_error_free e;
              Ev_dbus_message_unref reply]
      end).
Proof.
  unfold authorization_callback.
  destruct (dbus_set_error_from_message reply) as [e|]; run_calls;
    [|reflexivity].
  destruct (dbus_error_has_name e _); [|reflexivity].
  rewrite cancel_authorization_run. reflexivity.
Qed.

Lemma authorize_device_run (E : extern) (src dst : bdaddr_t) (g : globals) :
  authorize_device E src dst g =
  let auth := mk_auth src dst in
  let request := Ev_service_req_auth src dst HID_UUID CB_auth_callback auth in
  let new_call := Ev_dbus_message_new_method_call "org.bluez" "/org/bluez"
                    "org.bluez.Database" "RequestAuthorization" in
  let msg := RequestAuthorization E dst in
  let send := Ev_dbus_connection_send_with_reply (connection g) msg in
  if env_service_req_auth E src dst HID_UUID <? 0 then
    if env_dbus_message_alloc E "RequestAuthorization" then
      if env_dbus_connection_send_with_reply E (connection g) msg then
        (0, g, [request; new_call; send;
                Ev_dbus_pending_call_set_notify CB_authorization_callback auth;
                Ev_dbus_pending_call_unref;
                Ev_dbus_message_unref msg])
      else (- EACCES, g, [request; new_call; send])
    else
      (- ENOMEM, g,
       [request; new_call;
        Ev_error "Unable to allocate new RequestAuthorization method call"])
  else (env_service_req_auth E src dst HID_UUID, g, [request]).
Proof.
  unfold authorize_device, RequestAuthorization. run_calls.
  destruct (env_service_req_auth E src dst HID_UUID <? 0); [|reflexivity].
  destruct (env_dbus_message_alloc E _); [|reflexivity]. cbn.
  destruct (env_dbus_connection_send_with_reply E _ _); reflexivity.
Qed.

Lemma authorize_device_globals (E : extern) (src dst : bdaddr_t)
    (g : globals) :
  final (authorize_device E src dst g) = g.
Proof.
  rewrite authorize_device_run. cbv zeta.
  repeat match goal with |- context [if ?c then _ else _] => destruct c end;
    reflexivity.
Qed.

Lemma connect_event_cb_run (E : extern) (chan : ptr) (err : Z)
    (src dst : bdaddr_t) (data : ptr) (g : globals) :
  connect_event_cb E chan err src dst data g =
  let psm := int_of_uint (GPOINTER_TO_UINT data) in
  let sk := env_g_io_channel_unix_get_fd E chan in
  let accepted := [Ev_g_io_channel_unix_get_fd chan;
                   Ev_debug "Incoming connection on PSM %d";
                   Ev_input_device_set_channel src dst psm sk] in
  if err <? 0 then (tt, g, [Ev_error "accept: %s (%d)"])
  else if env_input_device_set_channel E src dst psm sk <? 0 then
    (tt, g,
     accepted
     ++ (if psm =? L2CAP_PSM_HIDP_CTRL then [Ev_write sk [Byte.x15]] else [])
     ++ [Ev_close sk])
  else if psm =? L2CAP_PSM_HIDP_INTR then
    let r := authorize_device E src dst g in
    (tt, g,
     accepted ++ trace r
     ++ (if result r <? 0 then [Ev_input_device_close_channels src dst]
         else []))
  else (tt, g, accepted).
Proof.
  unfold connect_event_cb. cbv zeta.
  destruct (err <? 0); [reflexivity|].
  run_calls.
  destruct (env_input_device_set_channel E src dst _ _ <? 0).
  - destruct (_ =? L2CAP_PSM_HIDP_CTRL); reflexivity.
  - destruct (_ =? L2CAP_PSM_HIDP_INTR); [|reflexivity].
    pose proof (authorize_device_globals E src dst g) as Hg.
    destruct (authorize_device E src dst g) as [[rv g'] t].
    unfold final in Hg; cbn in Hg; subst g'. cbn.
    destruct (rv <? 0); reflexivity.
Qed.

Lemma server_start_run (E : extern) (conn : ptr) (g : globals) :
  server_start E conn g =
  let c := env_bt_l2cap_listen E BDADDR_ANY L2CAP_PSM_HIDP_CTRL in
  let i := env_bt_l2cap_listen E BDADDR_ANY L2CAP_PSM_HIDP_INTR in
  let listen_ctrl := Ev_bt_l2cap_listen BDADDR_ANY L2CAP_PSM_HIDP_CTRL 0 0
                       CB_connect_event_cb
                       (GUINT_TO_POINTER L2CAP_PSM_HIDP_CTRL) in
  let listen_intr := Ev_bt_l2cap_listen BDADDR_ANY L2CAP_PSM_HIDP_INTR 0 0
                       CB_connect_event_cb
                       (GUINT_TO_POINTER L2CAP_PSM_HIDP_INTR) in
  if is_null c then
    (-1, mk_globals (connection g) c (intr_io g),
     [listen_ctrl; Ev_error "Failed to listen on control channel"])
  else if is_null i then
    (0, mk_globals conn NULL i,
     [listen_ctrl; Ev_g_io_channel_set_close_on_unref c true; listen_intr;
      Ev_error "Failed to listen on interrupt channel";
      Ev_g_io_channel_unref c;
      Ev_g_io_channel_set_close_on_unref i true])
  else
    (0, mk_globals conn c i,
     [listen_ctrl; Ev_g_io_channel_set_close_on_unref c true; listen_intr;
      Ev_g_io_channel_set_close_on_unref i true]).
Proof.
  unfold server_start. cbv zeta. run_calls.
  destruct (is_null (env_bt_l2cap_listen E BDADDR_ANY L2CAP_PSM_HIDP_CTRL));
    [reflexivity|].
  cbn.
  destruct (is_null (env_bt_l2cap_listen E BDADDR_ANY L2CAP_PSM_HIDP_INTR));
    reflexivity.
Qed.

Lemma server_stop_run (g : globals) :
  server_stop g =
  (tt, g,
   (if is_null (intr_io g) then [] else [Ev_g_io_channel_unref (intr_io g)])
   ++ (if is_null (ctrl_io g) then []
       else [Ev_g_io_channel_unref (ctrl_io g)])).
Proof.
  unfold server_stop. run_calls.
  destruct (is_null (intr_io g)), (is_null (ctrl_io g)); reflexivity.
Qed.

(* ------------------------------------------------------------------ *)
(** * The continuations *)

Lemma outcomes_app (t1 t2 : list event) :
  outcomes (t1 ++ t2) = outcomes t1 ++ outcomes t2.
Proof. unfold outcomes. apply flat_map_app. Qed.

Lemma auth_callback_outcomes (derr : option DBusError)
    (auth : authorization_data) (g : globals) :
  outcomes (trace (auth_callback derr auth g)) =
    match derr with
    | None => [ConnAdded (auth_src auth) (auth_dst auth)]
    | Some _ => [ChannelsClosed (auth_src auth) (auth_dst auth)]
    end.
Proof.
  rewrite auth_callback_run. destruct derr as [e|]; [|reflexivity].
  cbn. destruct (dbus_error_has_name e _); reflexivity.
Qed.

Lemma authorization_callback_outcomes (E : extern) (reply : DBusMessage)
    (auth : authorization_data) (g : globals) :
  outcomes (trace (authorization_callback E reply auth g)) =
    match dbus_set_error_from_message reply with
    | None => [ConnAdded (auth_src auth) (auth_dst auth)]
    | Some _ => [ChannelsClosed (auth_src auth) (auth_dst auth)]
    end.
Proof.
  rewrite authorization_callback_run.
  destruct (dbus_set_error_from_message reply) as [e|]; [|reflexivity].
  destruct (dbus_error_has_name e _); [|reflexivity].
  rewrite cancel_authorization_run. cbn.
  destruct (env_dbus_message_alloc E _); reflexivity.
Qed.

(** C4.  A continuation of either tier that carries no error calls
    [input_device_connadd] for exactly the captured pair and closes nothing;
    one that carries an error calls [input_device_close_channels] for that
    pair and completes no connection. *)
Theorem continuation_connadd_or_close :
  forall (E : extern) (derr : option DBusError) (reply : DBusMessage)
         (auth : authorization_data) (g : globals),
    outcomes (trace (auth_callback derr auth g)) =
      match derr with
      | None => [ConnAdded (auth_src auth) (auth_dst auth)]
      | Some _ => [ChannelsClosed (auth_src auth) (auth_dst auth)]
      end
    /\
    outcomes (trace (authorization_callback E reply auth g)) =
      match dbus_set_error_from_message reply with
      | None => [ConnAdded (auth_src auth) (auth_dst auth)]
      | Some _ => [ChannelsClosed (auth_src auth) (auth_dst auth)]
      end.
Proof.
  intros E derr reply auth g. split.
  - apply auth_callback_outcomes.
  - apply authorization_callback_outcomes.
Qed.

(** C3, as the code has it.  On the primary tier a "no reply" error makes
    exactly one [service_cancel_auth] call for the destination of the pair.
    On the fallback tier it makes exactly one [CancelAuthorizationRequest]
    call carrying the printed destination and the HID UUID when the message
    can be allocated, and none when it cannot.  Any other error, and
    success, make no cancellation call on either tier. *)
Theorem no_reply_cancellation :
  forall (E : extern) (derr : option DBusError) (reply : DBusMessage)
         (auth : authorization_data) (g : globals),
    cancellations (trace (auth_callback derr auth g)) =
      (if is_no_reply derr then [CancelPrimary (auth_dst auth)] else [])
    /\
    cancellations (trace (authorization_callback E reply auth g)) =
      (if is_no_reply (dbus_set_error_from_message reply) then
         if env_dbus_message_alloc E "CancelAuthorizationRequest"
         then [CancelRemote (connection g)
                 [env_ba2str E (auth_dst auth); HID_UUID]]
         else []
       else []).
Proof.
  intros E derr reply auth g. split.
  - rewrite auth_callback_run. destruct derr as [e|]; [|reflexivity].
    cbn. destruct (dbus_error_has_name e _); reflexivity.
  - rewrite authorization_callback_run.
    destruct (dbus_set_error_from_message reply) as [e|]; [|reflexivity].
    cbn. destruct (dbus_error_has_name e _); [|reflexivity].
    rewrite cancel_authorization_run. cbn.
    destruct (env_dbus_message_alloc E _); reflexivity.
Qed.

(** C3 as stated fails: the fallback continuation fires with a "no reply"
    error while no D-Bus message can be allocated, and the number of
    cancellation calls is not one. *)
Lemma fallback_no_reply_without_memory :
  is_no_reply (dbus_set_error_from_message (ErrorMessage Sample.no_reply))
    = true
  /\ List.length
       (cancellations
          (trace (authorization_callback Sample.no_memory
                    (ErrorMessage Sample.no_reply) Scenario.auth
                    Sample.started)))
     <> 1%nat.
Proof. split; [reflexivity | vm_compute; discriminate]. Qed.

(* ------------------------------------------------------------------ *)
(** * The authorization broker *)

(** C9.  [authorize_device] returns [-ENOMEM] exactly when the primary
    dispatch fails and the fallback message cannot be allocated, [-EACCES]
    exactly when the primary dispatch fails, the message is allocated and
    cannot be sent, and a non-negative status in every other case. *)
Theorem authorize_device_status :
  forall (E : extern) (src dst : bdaddr_t) (g : globals),
    let rv := result (authorize_device E src dst g) in
    let primary := env_service_req_auth E src dst HID_UUID in
    let alloc := env_dbus_message_alloc E "RequestAuthorization" in
    let sent := env_dbus_connection_send_with_reply E (connection g)
                  (RequestAuthorization E dst) in
    (rv = - ENOMEM /\ primary < 0 /\ alloc = false)
    \/ (rv = - EACCES /\ primary < 0 /\ alloc = true /\ sent = false)
    \/ (0 <= rv /\ (0 <= primary \/ (alloc = true /\ sent = true))).
Proof.
  intros E src dst g. cbv zeta. rewrite authorize_device_run. cbv zeta.
  destruct (env_service_req_auth E src dst HID_UUID <? 0) eqn:Hp.
  - apply Z.ltb_lt in Hp.
    destruct (env_dbus_message_alloc E _) eqn:Ha.
    + destruct (env_dbus_connection_send_with_reply E _ _) eqn:Hs.
      * right; right. unfold result; cbn. split; [lia | right; auto].
      * right; left. unfold result; cbn. auto.
    + left. unfold result; cbn. auto.
  - apply Z.ltb_ge in Hp. right; right. unfold result; cbn. split; auto.
Qed.

(** C2.  When [service_req_auth] returns a negative code, [authorize_device]
    goes on to build the [RequestAuthorization] call, and sends it if it got
    the message.  When that send fails, [authorize_device] stops there with
    [-EACCES]: nothing is called after the send, no continuation is in
    flight, and [connect_event_cb] closes the channels of the pair. *)
Theorem authorize_device_fallback_unsent :
  forall (E : extern) (src dst : bdaddr_t) (g : globals),
    env_service_req_auth E src dst HID_UUID < 0 ->
    let r := authorize_device E src dst g in
    let new_call := Ev_dbus_message_new_method_call "org.bluez" "/org/bluez"
                      "org.bluez.Database" "RequestAuthorization" in
    let send := Ev_dbus_connection_send_with_reply (connection g)
                  (RequestAuthorization E dst) in
    In new_call (trace r)
    /\ (env_dbus_message_alloc E "RequestAuthorization" = true ->
        In send (trace r)
        /\ (env_dbus_connection_send_with_reply E (connection g)
              (RequestAuthorization E dst) = false ->
            result r = - EACCES
            /\ trace r = [Ev_service_req_auth src dst HID_UUID
                            CB_auth_callback (mk_auth src dst);
                          new_call; send]
            /\ in_flight E (trace r) = []
            /\ forall (chan : ptr) (err : Z),
                 0 <= err ->
                 0 <= env_input_device_set_channel E src dst
                        L2CAP_PSM_HIDP_INTR
                        (env_g_io_channel_unix_get_fd E chan) ->
                 let r' := connect_event_cb E chan err src dst
                             (GUINT_TO_POINTER L2CAP_PSM_HIDP_INTR) g in
                 outcomes (trace r') = [ChannelsClosed src dst]
                 /\ in_flight E (trace r') = [])).
Proof.
  intros E src dst g Hp. cbv zeta.
  assert (Hb : (env_service_req_auth E src dst HID_UUID <? 0) = true)
    by (apply Z.ltb_lt; exact Hp).
  rewrite authorize_device_run. cbv zeta. rewrite Hb.
  split.
  - destruct (env_dbus_message_alloc E _);
      [destruct (env_dbus_connection_send_with_reply E _ _)|];
      cbn; auto.
  - intros Ha. rewrite Ha. split.
    + destruct (env_dbus_connection_send_with_reply E _ _); cbn; auto.
    + intros Hs. rewrite Hs.
      split; [reflexivity|]. split; [reflexivity|].
      split; [unfold trace, in_flight; cbn; rewrite Hb; reflexivity|].
      intros chan err Herr Hreg.
      rewrite connect_event_cb_run. cbv zeta. rewrite psm_of_intr_data.
      apply Z.ltb_ge in Herr, Hreg. rewrite Herr, Hreg.
      rewrite Z.eqb_refl, authorize_device_run. cbv zeta.
      rewrite Hb, Ha, Hs.
      unfold trace, result, in_flight, outcomes; cbn. rewrite Hb. auto.
Qed.

Lemma authorize_device_fallback_unsent_witness :
  env_service_req_auth Sample.bus_down Sample.src Sample.dst HID_UUID < 0
  /\ result (authorize_device Sample.bus_down Sample.src Sample.dst
               Sample.started) = - EACCES
  /\ outcomes
       (trace (connect_event_cb Sample.bus_down Sample.chan 0
                 Sample.src Sample.dst Scenario.intr_data Sample.started))
     = [ChannelsClosed Sample.src Sample.dst].
Proof.
  assert (Hp : env_service_req_auth Sample.bus_down Sample.src Sample.dst
                 HID_UUID < 0) by (vm_compute; reflexivity).
  split; [exact Hp|].
  destruct (authorize_device_fallback_unsent Sample.bus_down Sample.src
              Sample.dst Sample.started Hp) as [_ Hsend].
  destruct (Hsend eq_refl) as [_ Hfail].
  destruct (Hfail eq_refl) as [Hrv [_ [_ Hcaller]]].
  split; [exact Hrv|].
  apply (Hcaller Sample.chan 0); vm_compute; discriminate.
Defined.

(* ------------------------------------------------------------------ *)
(** * The connection acceptor *)

(** C5.  An accepted connection the registry refuses: on the control
    endpoint the single byte 0x15 is written to the socket and then the
    socket is closed; on the interrupt endpoint the socket is closed and
    nothing is written. *)
Theorem registration_failure_unplug :
  forall (E : extern) (chan : ptr) (err : Z) (src dst : bdaddr_t)
         (g : globals),
    0 <= err ->
    let sk := env_g_io_channel_unix_get_fd E chan in
    let accepted psm := [Ev_g_io_channel_unix_get_fd chan;
                         Ev_debug "Incoming connection on PSM %d";
                         Ev_input_device_set_channel src dst psm sk] in
    (env_input_device_set_channel E src dst L2CAP_PSM_HIDP_CTRL sk < 0 ->
     trace (connect_event_cb E chan err src dst
              (GUINT_TO_POINTER L2CAP_PSM_HIDP_CTRL) g)
     = accepted L2CAP_PSM_HIDP_CTRL ++ [Ev_write sk [Byte.x15]; Ev_close sk])
    /\
    (env_input_device_set_channel E src dst L2CAP_PSM_HIDP_INTR sk < 0 ->
     trace (connect_event_cb E chan err src dst
              (GUINT_TO_POINTER L2CAP_PSM_HIDP_INTR) g)
     = accepted L2CAP_PSM_HIDP_INTR ++ [Ev_close sk]).
Proof.
  intros E chan err src dst g Herr. cbv zeta.
  apply Z.ltb_ge in Herr.
  split; intros Hreg; apply Z.ltb_lt in Hreg;
    rewrite connect_event_cb_run; cbv zeta;
    [rewrite psm_of_ctrl_data | rewrite psm_of_intr_data];
    rewrite Herr, Hreg; reflexivity.
Qed.

Lemma registration_failure_unplug_witness :
  0 <= 0
  /\ trace (connect_event_cb Sample.unknown_device Sample.chan 0
              Sample.src Sample.dst Scenario.ctrl_data Sample.started)
     = [Ev_g_io_channel_unix_get_fd Sample.chan;
        Ev_debug "Incoming connection on PSM %d";
        Ev_input_device_set_channel Sample.src Sample.dst 0x11 7;
        Ev_write 7 [Byte.x15]; Ev_close 7]
  /\ trace (connect_event_cb Sample.unknown_device Sample.chan 0
              Sample.src Sample.dst Scenario.intr_data Sample.started)
     = [Ev_g_io_channel_unix_get_fd Sample.chan;
        Ev_debug "Incoming connection on PSM %d";
        Ev_input_device_set_channel Sample.src Sample.dst 0x13 7;
        Ev_close 7].
Proof.
  assert (H0 : 0 <= 0) by lia.
  split; [exact H0|].
  destruct (registration_failure_unplug Sample.unknown_device Sample.chan 0
              Sample.src Sample.dst Sample.started H0) as [Hc Hi].
  split; [apply Hc | apply Hi]; vm_compute; reflexivity.
Defined.

(** The two ways [connect_event_cb] leaves an accepted interrupt-channel
    connection: settled on the spot with nothing in flight, or unsettled
    with exactly one continuation in flight for the pair. *)
Lemma connect_event_cb_interrupt_cases :
  forall (E : extern) (chan : ptr) (err : Z) (src dst : bdaddr_t)
         (g : globals),
    0 <= err ->
    let t := trace (connect_event_cb E chan err src dst
                      (GUINT_TO_POINTER L2CAP_PSM_HIDP_INTR) g) in
    (in_flight E t = []
     /\ (outcomes t = [SocketClosed (env_g_io_channel_unix_get_fd E chan)]
         \/ outcomes t = [ChannelsClosed src dst]))
    \/
    (outcomes t = []
     /\ (in_flight E t = [(CB_auth_callback, mk_auth src dst)]
         \/ in_flight E t = [(CB_authorization_callback, mk_auth src dst)])).
Proof.
  intros E chan err src dst g Herr. cbv zeta.
  apply Z.ltb_ge in Herr.
  rewrite connect_event_cb_run. cbv zeta. rewrite psm_of_intr_data, Herr.
  destruct (env_input_device_set_channel E src dst _ _ <? 0).
  - left. unfold trace, in_flight, outcomes; cbn. auto.
  - rewrite Z.eqb_refl, authorize_device_run. cbv zeta.
    destruct (env_service_req_auth E src dst HID_UUID <? 0) eqn:Hp.
    + destruct (env_dbus_message_alloc E _).
      * destruct (env_dbus_connection_send_with_reply E _ _).
        -- right. unfold trace, result, in_flight, outcomes; cbn.
           rewrite Hp. auto.
        -- left. unfold trace, result, in_flight, outcomes; cbn.
           rewrite Hp. auto.
      * left. unfold trace, result, in_flight, outcomes; cbn.
        rewrite Hp. auto.
    + right. unfold trace, result, in_flight, outcomes; cbn.
      rewrite Hp. cbn. auto.
Qed.

(** C1.  A connection accepted on the interrupt endpoint, followed until the
    continuation it left in flight (if any) has fired: over the whole run
    exactly one outcome occurs, and it is the admission of the pair, the
    closing of the pair's channels, or the closing of the socket. *)
Theorem interrupt_connection_one_outcome :
  forall (E E' : extern) (chan : ptr) (err : Z) (src dst : bdaddr_t)
         (derr : option DBusError) (reply : DBusMessage) (g g' : globals),
    0 <= err ->
    exists o : outcome,
      outcomes (interrupt_connection E E' chan err src dst derr reply g g')
      = [o]
      /\ (o = ConnAdded src dst
          \/ o = ChannelsClosed src dst
          \/ o = SocketClosed (env_g_io_channel_unix_get_fd E chan)).
Proof.
  intros E E' chan err src dst derr reply g g' Herr.
  unfold interrupt_connection. cbv zeta.
  rewrite outcomes_app.
  destruct (connect_event_cb_interrupt_cases E chan err src dst g Herr)
    as [[Hk Ho] | [Ho Hk]]; cbv zeta in *.
  - rewrite Hk.
    change (outcomes (settle E' derr reply g' [])) with (@nil outcome).
    rewrite app_nil_r.
    destruct Ho as [Ho | Ho]; rewrite Ho; eexists; split; eauto.
  - rewrite Ho. cbn [app].
    pose proof (auth_callback_outcomes derr (mk_auth src dst) g') as Hprim.
    pose proof (authorization_callback_outcomes E' reply (mk_auth src dst) g')
      as Hfall.
    destruct Hk as [Hk | Hk]; rewrite Hk; unfold settle; cbn [flat_map];
      rewrite app_nil_r; unfold resume; cbn [fst snd].
    + rewrite Hprim. destruct derr; eexists; split; eauto.
    + rewrite Hfall.
      destruct (dbus_set_error_from_message reply); eexists; split; eauto.
Qed.

Lemma interrupt_connection_one_outcome_witness :
  0 <= 0
  /\ exists o : outcome,
       outcomes (interrupt_connection Sample.primary_down Sample.healthy
                   Sample.chan 0 Sample.src Sample.dst None
                   (ErrorMessage Sample.no_reply)
                   Sample.started Sample.started)
       = [o]
       /\ (o = ConnAdded Sample.src Sample.dst
           \/ o = ChannelsClosed Sample.src Sample.dst
           \/ o = SocketClosed
                    (env_g_io_channel_unix_get_fd Sample.primary_down
                       Sample.chan)).
Proof.
  assert (H0 : 0 <= 0) by lia.
  split; [exact H0|].
  exact (interrupt_connection_one_outcome Sample.primary_down Sample.healthy
           Sample.chan 0 Sample.src Sample.dst None
           (ErrorMessage Sample.no_reply) Sample.started Sample.started H0).
Defined.

(* ------------------------------------------------------------------ *)
(** * The service lifecycle *)

(** C6, the code at the failing input: the control listener opens, the
    interrupt listener does not.  [server_start] releases the control
    listener, and then carries on: it returns 0 and stores the RPC handle. *)
Theorem server_start_interrupt_failure_reports_success :
  is_null (env_bt_l2cap_listen Sample.intr_busy BDADDR_ANY
             L2CAP_PSM_HIDP_CTRL) = false
  /\ is_null (env_bt_l2cap_listen Sample.intr_busy BDADDR_ANY
                L2CAP_PSM_HIDP_INTR) = true
  /\ In (Ev_g_io_channel_unref 0x1000)
        (trace (server_start Sample.intr_busy Sample.conn initial_globals))
  /\ result (server_start Sample.intr_busy Sample.conn initial_globals) = 0
  /\ final (server_start Sample.intr_busy Sample.conn initial_globals)
     = mk_globals Sample.conn NULL NULL.
Proof.
  rewrite server_start_run.
  split; [reflexivity|]. split; [reflexivity|].
  split; [cbn; do 4 right; left; reflexivity | split; reflexivity].
Qed.

(** C10, the code at the failing input: when the interrupt listener does not
    open, [g_io_channel_set_close_on_unref] is still called on [intr_io],
    which is [NULL]. *)
Theorem server_start_interrupt_failure_null_channel :
  filter channel_op
    (trace (server_start Sample.intr_busy Sample.conn initial_globals))
  = [Ev_g_io_channel_set_close_on_unref 0x1000 true;
     Ev_g_io_channel_unref 0x1000;
     Ev_g_io_channel_set_close_on_unref NULL true].
Proof. rewrite server_start_run. reflexivity. Qed.

(** C7, as the code has it.  [server_stop] releases the interrupt listener
    if its handle is not NULL, then the control listener if its handle is
    not NULL, and changes no global: the handles keep their values.  With
    both handles NULL, as before any start, it does nothing. *)
Theorem server_stop_releases :
  forall g : globals,
    final (server_stop g) = g
    /\ trace (server_stop g)
       = (if is_null (intr_io g) then []
          else [Ev_g_io_channel_unref (intr_io g)])
         ++ (if is_null (ctrl_io g) then []
             else [Ev_g_io_channel_unref (ctrl_io g)])
    /\ server_stop initial_globals = (tt, initial_globals, []).
Proof.
  intros g. rewrite !server_stop_run. repeat split; reflexivity.
Qed.

(** C7 as stated fails: after a start that opened both listeners and a
    stop, both handles are still set, and a second stop releases both
    listeners again. *)
Lemma server_stop_twice_releases_twice :
  intr_io Scenario.after_stop <> NULL
  /\ ctrl_io Scenario.after_stop <> NULL
  /\ trace (server_stop Scenario.after_stop)
     = [Ev_g_io_channel_unref 0x2000; Ev_g_io_channel_unref 0x1000].
Proof.
  repeat split; try (vm_compute; discriminate).
Qed.

Lemma authorize_device_bus_handles (E : extern) (src dst : bdaddr_t)
    (g : globals) :
  bus_handles (trace (authorize_device E src dst g))
  = if (env_service_req_auth E src dst HID_UUID <? 0)
       && env_dbus_message_alloc E "RequestAuthorization"
    then [connection g] else [].
Proof.
  rewrite authorize_device_run. cbv zeta.
  destruct (env_service_req_auth E src dst HID_UUID <? 0); [|reflexivity].
  destruct (env_dbus_message_alloc E _); [|reflexivity].
  destruct (env_dbus_connection_send_with_reply E _ _); reflexivity.
Qed.

Lemma cancel_authorization_bus_handles (E : extern) (addr : string)
    (g : globals) :
  bus_handles (trace (cancel_authorization E addr g))
  = if env_dbus_message_alloc E "CancelAuthorizationRequest"
    then [connection g] else [].
Proof.
  rewrite cancel_authorization_run.
  destruct (env_dbus_message_alloc E _); reflexivity.
Qed.

(** C8, as the code has it.  A start that opens both listeners stores the
    RPC handle it is given.  [server_stop] does not clear it: after a stop
    the stored handle is the one from before the stop, and the calls made
    then go out on it, the authorization request of [authorize_device]
    whenever it reaches the send, and the cancellation of
    [cancel_authorization] whenever its message is allocated. *)
Theorem connection_set_by_start_kept_by_stop :
  forall (E E' : extern) (conn : ptr) (src dst : bdaddr_t) (addr : string)
         (g : globals),
    (is_null (env_bt_l2cap_listen E BDADDR_ANY L2CAP_PSM_HIDP_CTRL) = false ->
     is_null (env_bt_l2cap_listen E BDADDR_ANY L2CAP_PSM_HIDP_INTR) = false ->
     connection (final (server_start E conn g)) = conn)
    /\ connection (final (server_stop g)) = connection g
    /\ bus_handles
         (trace (authorize_device E' src dst (final (server_stop g))))
       = (if (env_service_req_auth E' src dst HID_UUID <? 0)
             && env_dbus_message_alloc E' "RequestAuthorization"
          then [connection g] else [])
    /\ bus_handles
         (trace (cancel_authorization E' addr (final (server_stop g))))
       = (if env_dbus_message_alloc E' "CancelAuthorizationRequest"
          then [connection g] else []).
Proof.
  intros E E' conn src dst addr g.
  assert (Hstop : final (server_stop g) = g)
    by (rewrite server_stop_run; reflexivity).
  split; [|split; [|split]].
  - intros Hc Hi. rewrite server_start_run. cbv zeta. rewrite Hc, Hi.
    reflexivity.
  - rewrite Hstop. reflexivity.
  - rewrite Hstop. apply authorize_device_bus_handles.
  - rewrite Hstop. apply cancel_authorization_bus_handles.
Qed.

Lemma connection_set_by_start_kept_by_stop_witness :
  is_null (env_bt_l2cap_listen Sample.healthy BDADDR_ANY
             L2CAP_PSM_HIDP_CTRL) = false
  /\ is_null (env_bt_l2cap_listen Sample.healthy BDADDR_ANY
                L2CAP_PSM_HIDP_INTR) = false
  /\ connection (final (server_start Sample.healthy Sample.conn
                          initial_globals)) = Sample.conn
  /\ connection (final (server_stop Scenario.after_start)) = Sample.conn
  /\ bus_handles
       (trace (authorize_device Sample.primary_down Sample.src Sample.dst
                 (final (server_stop Scenario.after_start))))
     = [Sample.conn]
  /\ bus_handles
       (trace (cancel_authorization Sample.primary_down
                 "BB:BB:BB:BB:BB:BB"
                 (final (server_stop Scenario.after_start))))
     = [Sample.conn].
Proof.
  assert (Hc : is_null (env_bt_l2cap_listen Sample.healthy BDADDR_ANY
                          L2CAP_PSM_HIDP_CTRL) = false) by reflexivity.
  assert (Hi : is_null (env_bt_l2cap_listen Sample.healthy BDADDR_ANY
                          L2CAP_PSM_HIDP_INTR) = false) by reflexivity.
  split; [exact Hc|]. split; [exact Hi|].
  destruct (connection_set_by_start_kept_by_stop Sample.healthy
              Sample.primary_down Sample.conn Sample.src Sample.dst
              "BB:BB:BB:BB:BB:BB" initial_globals) as [Hstart _].
  split; [exact (Hstart Hc Hi)|].
  destruct (connection_set_by_start_kept_by_stop Sample.healthy
              Sample.primary_down Sample.conn Sample.src Sample.dst
              "BB:BB:BB:BB:BB:BB" Scenario.after_start)
    as [_ [Hkept [Hauth Hcancel]]].
  split; [exact Hkept|]. split; [exact Hauth | exact Hcancel].
Defined.

(** C8 as stated fails: after start and stop the stored handle is still the
    one start was given, not NULL, and both a cancellation call and an
    authorization call made after the stop go out on it. *)
Lemma connection_survives_stop :
  connection Scenario.after_stop = Sample.conn
  /\ Sample.conn <> NULL
  /\ cancellations
       (trace (authorization_callback Sample.healthy
                 (ErrorMessage Sample.no_reply) Scenario.auth
                 Scenario.after_stop))
     = [CancelRemote Sample.conn ["BB:BB:BB:BB:BB:BB"%string; HID_UUID]]
  /\ In (Ev_dbus_connection_send_with_reply Sample.conn
           (RequestAuthorization Sample.primary_down Sample.dst))
        (trace (authorize_device Sample.primary_down Sample.src Sample.dst
                  Scenario.after_stop)).
Proof.
  split; [reflexivity|]. split; [vm_compute; discriminate|].
  split; [reflexivity|].
  rewrite authorize_device_run. vm_compute. auto.
Qed.

(* ------------------------------------------------------------------ *)
(** * Two runs from start to end *)

(** The registry takes the channel, the primary tier takes the request, and
    its continuation fires without error: the connection of the pair is
    completed once, and nothing else happens to it. *)
Example primary_granted :
  outcomes (interrupt_connection Sample.healthy Sample.healthy Sample.chan 0
              Sample.src Sample.dst None MethodReturn
              Sample.started Sample.started)
  = [ConnAdded Sample.src Sample.dst].
Proof. reflexivity. Qed.

(** The primary tier is unavailable, the fallback request is sent, and its
    reply is the "no reply" error: one cancellation goes out for the printed
    destination, and then the channels of the pair are closed. *)
Example fallback_timed_out :
  filter (fun e => match cancellation_of e, outcome_of e with
                   | [], [] => false
                   | _, _ => true
                   end)
    (interrupt_connection Sample.primary_down Sample.healthy Sample.chan 0
       Sample.src Sample.dst None (ErrorMessage Sample.no_reply)
       Sample.started Sample.started)
  = [Ev_send_message_and_unref Sample.conn
       (MethodCall "org.bluez" "/org/bluez" "org.bluez.Database"
          "CancelAuthorizationRequest"
          ["BB:BB:BB:BB:BB:BB"%string; HID_UUID]);
     Ev_input_device_close_channels Sample.src Sample.dst].
Proof. reflexivity. Qed.

(* ------------------------------------------------------------------ *)
(** * Further properties of the acceptor *)

Ltac case_ifs :=
  repeat match goal with
         | |- context [if ?c then _ else _] => destruct c eqn:?
         end.

(** X1.  Only [server_start] writes the file-scope variables: the accept
    callback, the broker, both continuations and the cancellation helper
    return with the globals exactly as they found them. *)
Theorem handlers_keep_globals :
  forall (E : extern) (chan : ptr) (err : Z) (src dst : bdaddr_t)
         (data : ptr) (derr : option DBusError) (reply : DBusMessage)
         (auth : authorization_data) (addr : string) (g : globals),
    final (connect_event_cb E chan err src dst data g) = g
    /\ final (authorize_device E src dst g) = g
    /\ final (auth_callback derr auth g) = g
    /\ final (authorization_callback E reply auth g) = g
    /\ final (cancel_authorization E addr g) = g.
Proof.
  intros. repeat split.
  - rewrite connect_event_cb_run. cbv zeta. case_ifs; reflexivity.
  - apply authorize_device_globals.
  - rewrite auth_callback_run. reflexivity.
  - rewrite authorization_callback_run. reflexivity.
  - rewrite cancel_authorization_run. reflexivity.
Qed.

(** X2.  The PSM a listener is started with comes back unchanged in the
    accept callback: packing an [int] into the [data] pointer with
    [GUINT_TO_POINTER] and reading it with [GPOINTER_TO_UINT] into an [int]
    is the identity on the whole [int] range. *)
Theorem psm_through_data_pointer :
  forall u : Z,
    - 2 ^ 31 <= u < 2 ^ 31 ->
    int_of_uint (GPOINTER_TO_UINT (GUINT_TO_POINTER u)) = u.
Proof.
  intros u Hu. unfold GPOINTER_TO_UINT, GUINT_TO_POINTER, int_of_uint.
  rewrite Z.mod_mod by lia.
  destruct (Z.ltb_spec (u mod 2 ^ 32) (2 ^ 31)) as [Hlt | Hge].
  - destruct (Z_lt_le_dec u 0) as [Hneg | Hpos].
    + assert (Hm : u mod 2 ^ 32 = u + 2 ^ 32).
      { symmetry. apply Z.mod_unique with (q := -1); lia. }
      lia.
    + apply Z.mod_small. lia.
  - destruct (Z_lt_le_dec u 0) as [Hneg | Hpos].
    + assert (Hm : u mod 2 ^ 32 = u + 2 ^ 32).
      { symmetry. apply Z.mod_unique with (q := -1); lia. }
      lia.
    + rewrite Z.mod_small in Hge by lia. lia.
Qed.

Lemma psm_through_data_pointer_witness :
  - 2 ^ 31 <= -1 < 2 ^ 31
  /\ int_of_uint (GPOINTER_TO_UINT (GUINT_TO_POINTER (-1))) = -1.
Proof.
  assert (H : - 2 ^ 31 <= -1 < 2 ^ 31) by lia.
  split; [exact H | exact (psm_through_data_pointer (-1) H)].
Defined.

(** X3.  The accept callback touches the raw socket only when the registry
    refuses the channel: then it closes the socket, after writing the single
    byte 0x15 if and only if the PSM is the control PSM.  On an accept
    error, and whenever the registry takes the channel, it neither writes to
    nor closes the socket, whatever the PSM. *)
Theorem socket_touched_only_on_refusal :
  forall (E : extern) (chan : ptr) (err : Z) (src dst : bdaddr_t)
         (data : ptr) (g : globals),
    let psm := int_of_uint (GPOINTER_TO_UINT data) in
    let sk := env_g_io_channel_unix_get_fd E chan in
    filter socket_op (trace (connect_event_cb E chan err src dst data g))
    = if (err <? 0) then []
      else if env_input_device_set_channel E src dst psm sk <? 0 then
        (if psm =? L2CAP_PSM_HIDP_CTRL then [Ev_write sk [Byte.x15]] else [])
        ++ [Ev_close sk]
      else [].
Proof.
  intros E chan err src dst data g. cbv zeta.
  rewrite connect_event_cb_run. cbv zeta.
  destruct (err <? 0); [reflexivity|].
  destruct (env_input_device_set_channel E src dst _ _ <? 0).
  - destruct (_ =? L2CAP_PSM_HIDP_CTRL); reflexivity.
  - destruct (_ =? L2CAP_PSM_HIDP_INTR); [|reflexivity].
    rewrite authorize_device_run. cbv zeta. case_ifs; reflexivity.
Qed.

(** X4.  The broker is entered exactly for accepted connections on the
    interrupt PSM that the registry took.  In every other case (accept
    error, refused channel, control or any other PSM) the accept callback
    makes no authorization, cancellation, D-Bus or [g_free] call, and leaves
    no continuation in flight. *)
Theorem broker_entered_only_for_interrupt :
  forall (E : extern) (chan : ptr) (err : Z) (src dst : bdaddr_t)
         (data : ptr) (g : globals),
    let psm := int_of_uint (GPOINTER_TO_UINT data) in
    let sk := env_g_io_channel_unix_get_fd E chan in
    let t := trace (connect_event_cb E chan err src dst data g) in
    let entered := negb (err <? 0)
                   && negb (env_input_device_set_channel E src dst psm sk <? 0)
                   && (psm =? L2CAP_PSM_HIDP_INTR) in
    existsb broker_call t = entered
    /\ (entered = false -> filter broker_call t = [] /\ in_flight E t = []).
Proof.
  intros E chan err src dst data g. cbv zeta.
  rewrite connect_event_cb_run. cbv zeta.
  destruct (err <? 0); [cbn; auto|].
  destruct (env_input_device_set_channel E src dst _ _ <? 0).
  - destruct (_ =? L2CAP_PSM_HIDP_CTRL); cbn; auto.
  - destruct (_ =? L2CAP_PSM_HIDP_INTR); [|cbn; auto].
    split; [|intros H; discriminate H].
    rewrite authorize_device_run. cbv zeta. case_ifs; reflexivity.
Qed.

Lemma broker_entered_only_for_interrupt_witness :
  existsb broker_call
    (trace (connect_event_cb Sample.healthy Sample.chan 0 Sample.src
              Sample.dst Scenario.ctrl_data Sample.started)) = false
  /\ filter broker_call
       (trace (connect_event_cb Sample.healthy Sample.chan 0 Sample.src
                 Sample.dst Scenario.ctrl_data Sample.started)) = []
  /\ in_flight Sample.healthy
       (trace (connect_event_cb Sample.healthy Sample.chan 0 Sample.src
                 Sample.dst Scenario.ctrl_data Sample.started)) = [].
Proof.
  destruct (broker_entered_only_for_interrupt Sample.healthy Sample.chan 0
              Sample.src Sample.dst Scenario.ctrl_data Sample.started)
    as [Hcalls Hnone].
  split; [exact Hcalls | exact (Hnone eq_refl)].
Defined.

(* ------------------------------------------------------------------ *)
(** * Further properties of the broker *)

(** X5.  The status of [authorize_device] tells whether a continuation is
    in flight: with a negative status none is, and with a non-negative
    status exactly one is, holding the pair it was called with; it is
    [auth_callback] when the primary tier took the request and
    [authorization_callback] otherwise, never both. *)
Theorem status_tells_in_flight :
  forall (E : extern) (src dst : bdaddr_t) (g : globals),
    let r := authorize_device E src dst g in
    in_flight E (trace r)
    = if result r <? 0 then []
      else [(if env_service_req_auth E src dst HID_UUID <? 0
             then CB_authorization_callback else CB_auth_callback,
             mk_auth src dst)].
Proof.
  intros E src dst g. cbv zeta. rewrite authorize_device_run. cbv zeta.
  destruct (env_service_req_auth E src dst HID_UUID <? 0) eqn:Hp.
  - destruct (env_dbus_message_alloc E _);
      [destruct (env_dbus_connection_send_with_reply E _ _)|];
      unfold trace, result, in_flight; cbn; rewrite Hp; reflexivity.
  - unfold trace, result, in_flight; cbn. rewrite !Hp. reflexivity.
Qed.

(** X6.  When the primary tier takes the request, [authorize_device] hands
    its code back unchanged and does nothing else: no message is built and
    nothing is sent on the bus. *)
Theorem primary_taken_skips_fallback :
  forall (E : extern) (src dst : bdaddr_t) (g : globals),
    0 <= env_service_req_auth E src dst HID_UUID ->
    let r := authorize_device E src dst g in
    result r = env_service_req_auth E src dst HID_UUID
    /\ trace r = [Ev_service_req_auth src dst HID_UUID CB_auth_callback
                    (mk_auth src dst)]
    /\ filter dbus_call (trace r) = [].
Proof.
  intros E src dst g Hp. cbv zeta. apply Z.ltb_ge in Hp.
  rewrite authorize_device_run. cbv zeta. rewrite Hp.
  repeat split.
Qed.

Lemma primary_taken_skips_fallback_witness :
  0 <= env_service_req_auth Sample.healthy Sample.src Sample.dst HID_UUID
  /\ result (authorize_device Sample.healthy Sample.src Sample.dst
               Sample.started) = 0
  /\ filter dbus_call
       (trace (authorize_device Sample.healthy Sample.src Sample.dst
                 Sample.started)) = [].
Proof.
  assert (Hp : 0 <= env_service_req_auth Sample.healthy Sample.src
                      Sample.dst HID_UUID) by (vm_compute; discriminate).
  split; [exact Hp|].
  destruct (primary_taken_skips_fallback Sample.healthy Sample.src
              Sample.dst Sample.started Hp) as [Hrv [_ Hbus]].
  split; [exact Hrv | exact Hbus].
Defined.

(** X7.  [authorize_device] releases the request message exactly when it
    was sent.  After a failed send the message it built is not released,
    and on no path, the two error returns included, does it free the
    [authorization_data] it allocated. *)
Theorem authorize_device_releases :
  forall (E : extern) (src dst : bdaddr_t) (g : globals),
    let t := trace (authorize_device E src dst g) in
    unreffed t
    = (if (env_service_req_auth E src dst HID_UUID <? 0)
          && env_dbus_message_alloc E "RequestAuthorization"
          && env_dbus_connection_send_with_reply E (connection g)
               (RequestAuthorization E dst)
       then [RequestAuthorization E dst] else [])
    /\ freed t = [].
Proof.
  intros E src dst g. cbv zeta. rewrite authorize_device_run. cbv zeta.
  destruct (env_service_req_auth E src dst HID_UUID <? 0);
    [|split; reflexivity].
  destruct (env_dbus_message_alloc E _); [|split; reflexivity].
  destruct (env_dbus_connection_send_with_reply E _ _); split; reflexivity.
Qed.

(** X8.  What the continuations release.  [auth_callback] frees its
    [authorization_data] exactly once, as its last call, with or without an
    error.  [authorization_callback] never frees it; it takes the reply
    first, releases that reply exactly once, and frees the error exactly
    when the reply carried one. *)
Theorem continuations_release :
  forall (E : extern) (derr : option DBusError) (reply : DBusMessage)
         (auth : authorization_data) (g : globals),
    let tp := trace (auth_callback derr auth g) in
    let tf := trace (authorization_callback E reply auth g) in
    (freed tp = [auth] /\ exists t, tp = t ++ [Ev_g_free auth])
    /\ (freed tf = [] /\ hd_error tf = Some Ev_dbus_pending_call_steal_reply
        /\ unreffed tf = [reply]
        /\ error_freed tf
           = match dbus_set_error_from_message reply with
             | Some e => [e]
             | None => []
             end).
Proof.
  intros E derr reply auth g. cbv zeta.
  rewrite auth_callback_run, authorization_callback_run. split.
  - destruct derr as [e|].
    + destruct (dbus_error_has_name e DBUS_ERROR_NO_REPLY);
        unfold trace; cbn; split; try reflexivity.
      * exists [Ev_error "Access denied: %s";
                Ev_service_cancel_auth (auth_dst auth);
                Ev_input_device_close_channels (auth_src auth)
                  (auth_dst auth)].
        reflexivity.
      * exists [Ev_error "Access denied: %s";
                Ev_input_device_close_channels (auth_src auth)
                  (auth_dst auth)].
        reflexivity.
    + split; [reflexivity|].
      exists [Ev_input_device_connadd (auth_src auth) (auth_dst auth)].
      reflexivity.
  - destruct (dbus_set_error_from_message reply) as [e|];
      [|repeat split].
    rewrite cancel_authorization_run.
    destruct (dbus_error_has_name e DBUS_ERROR_NO_REPLY);
      [destruct (env_dbus_message_alloc E _)|]; repeat split.
Qed.

(** X9.  On a "no reply" error the cancellation goes out before the
    channels are closed: [service_cancel_auth] precedes
    [input_device_close_channels] on the primary tier, and on the fallback
    tier the [CancelAuthorizationRequest] call, when its message could be
    allocated, precedes it too. *)
Theorem cancellation_precedes_close :
  forall (E : extern) (e : DBusError) (auth : authorization_data)
         (g : globals),
    dbus_error_has_name e DBUS_ERROR_NO_REPLY = true ->
    filter decisive (trace (auth_callback (Some e) auth g))
    = [Ev_service_cancel_auth (auth_dst auth);
       Ev_input_device_close_channels (auth_src auth) (auth_dst auth)]
    /\ filter decisive
         (trace (authorization_callback E (ErrorMessage e) auth g))
       = (if env_dbus_message_alloc E "CancelAuthorizationRequest"
          then [Ev_send_message_and_unref (connection g)
                  (CancelAuthorizationRequest
                     (env_ba2str E (auth_dst auth)))]
          else [])
         ++ [Ev_input_device_close_channels (auth_src auth) (auth_dst auth)].
Proof.
  intros E e auth g Hn. split.
  - rewrite auth_callback_run. unfold trace; cbn. rewrite Hn. reflexivity.
  - rewrite authorization_callback_run. unfold trace; cbn. rewrite Hn.
    rewrite cancel_authorization_run.
    destruct (env_dbus_message_alloc E _); reflexivity.
Qed.

Lemma cancellation_precedes_close_witness :
  dbus_error_has_name Sample.no_reply DBUS_ERROR_NO_REPLY = true
  /\ filter decisive
       (trace (auth_callback (Some Sample.no_reply) Scenario.auth
                 Sample.started))
     = [Ev_service_cancel_auth Sample.dst;
        Ev_input_device_close_channels Sample.src Sample.dst]
  /\ filter decisive
       (trace (authorization_callback Sample.healthy
                 (ErrorMessage Sample.no_reply) Scenario.auth
                 Sample.started))
     = [Ev_send_message_and_unref Sample.conn
          (CancelAuthorizationRequest "BB:BB:BB:BB:BB:BB");
        Ev_input_device_close_channels Sample.src Sample.dst].
Proof.
  assert (Hn : dbus_error_has_name Sample.no_reply DBUS_ERROR_NO_REPLY
               = true) by reflexivity.
  split; [exact Hn|].
  exact (cancellation_precedes_close Sample.healthy Sample.no_reply
           Scenario.auth Sample.started Hn).
Defined.

(** X10.  Every message this module sends, whether the authorization
    request or the cancellation, goes out on the handle stored in
    [connection] at that moment, in every handler. *)
Theorem sends_use_stored_connection :
  forall (E : extern) (chan : ptr) (err : Z) (src dst : bdaddr_t)
         (data : ptr) (reply : DBusMessage) (auth : authorization_data)
         (addr : string) (g : globals),
    Forall (eq (connection g))
      (bus_handles (trace (connect_event_cb E chan err src dst data g)))
    /\ Forall (eq (connection g))
         (bus_handles (trace (authorize_device E src dst g)))
    /\ Forall (eq (connection g))
         (bus_handles (trace (authorization_callback E reply auth g)))
    /\ Forall (eq (connection g))
         (bus_handles (trace (cancel_authorization E addr g))).
Proof.
  intros E chan err src dst data reply auth addr g.
  assert (Hauth : Forall (eq (connection g))
                    (bus_handles (trace (authorize_device E src dst g)))).
  { rewrite authorize_device_run. cbv zeta.
    case_ifs; unfold trace, bus_handles; cbn; repeat constructor. }
  assert (Hcancel : forall a, Forall (eq (connection g))
                      (bus_handles (trace (cancel_authorization E a g)))).
  { intros a. rewrite cancel_authorization_run.
    case_ifs; unfold trace, bus_handles; cbn; repeat constructor. }
  repeat split; auto.
  - rewrite connect_event_cb_run. cbv zeta.
    destruct (err <? 0); [constructor|].
    destruct (env_input_device_set_channel E src dst _ _ <? 0).
    + case_ifs; constructor.
    + destruct (_ =? L2CAP_PSM_HIDP_INTR); [|constructor].
      unfold trace at 1. cbn [snd].
      unfold bus_handles. rewrite !flat_map_app. cbn [flat_map sent_on app].
      apply Forall_app. split; [exact Hauth|].
      case_ifs; constructor.
  - rewrite authorization_callback_run.
    destruct (dbus_set_error_from_message reply) as [e|];
      [|constructor].
    destruct (dbus_error_has_name e DBUS_ERROR_NO_REPLY); [|constructor].
    unfold trace at 1. cbn [snd]. unfold bus_handles. cbn [flat_map sent_on app].
    rewrite flat_map_app. cbn [flat_map sent_on app]. rewrite app_nil_r.
    apply Hcancel.
Qed.

(* ------------------------------------------------------------------ *)
(** * Further properties of the lifecycle *)

Lemma is_null_true (p : ptr) : is_null p = true -> p = NULL.
Proof. unfold is_null. apply Z.eqb_eq. Qed.

Lemma is_null_false (p : ptr) : is_null p = false -> p <> NULL.
Proof. unfold is_null. apply Z.eqb_neq. Qed.

(** X11.  When the control listener cannot be opened, [server_start] logs
    and returns -1 at once: it never tries the interrupt listener, performs
    no channel operation, and leaves [connection] and [intr_io] as they
    were, with [ctrl_io] NULL. *)
Theorem server_start_control_failure :
  forall (E : extern) (conn : ptr) (g : globals),
    is_null (env_bt_l2cap_listen E BDADDR_ANY L2CAP_PSM_HIDP_CTRL) = true ->
    server_start E conn g
    = (-1, mk_globals (connection g) NULL (intr_io g),
       [Ev_bt_l2cap_listen BDADDR_ANY L2CAP_PSM_HIDP_CTRL 0 0
          CB_connect_event_cb (GUINT_TO_POINTER L2CAP_PSM_HIDP_CTRL);
        Ev_error "Failed to listen on control channel"]).
Proof.
  intros E conn g Hc. rewrite server_start_run. cbv zeta. rewrite Hc.
  rewrite (is_null_true _ Hc). reflexivity.
Qed.

Lemma server_start_control_failure_witness :
  is_null (env_bt_l2cap_listen (Sample.env 0 0 true true NULL 0x2000)
             BDADDR_ANY L2CAP_PSM_HIDP_CTRL) = true
  /\ server_start (Sample.env 0 0 true true NULL 0x2000) Sample.conn
       Sample.started
     = (-1, mk_globals Sample.conn NULL 0x2000,
        [Ev_bt_l2cap_listen BDADDR_ANY L2CAP_PSM_HIDP_CTRL 0 0
           CB_connect_event_cb (GUINT_TO_POINTER L2CAP_PSM_HIDP_CTRL);
         Ev_error "Failed to listen on control channel"]).
Proof.
  assert (Hc : is_null (env_bt_l2cap_listen
                          (Sample.env 0 0 true true NULL 0x2000)
                          BDADDR_ANY L2CAP_PSM_HIDP_CTRL) = true)
    by reflexivity.
  split; [exact Hc|].
  exact (server_start_control_failure (Sample.env 0 0 true true NULL 0x2000)
           Sample.conn Sample.started Hc).
Defined.

(** X12.  [server_start] never leaves the control listener open on its
    own.  When it returns, one of three holds: no control channel was
    obtained and nothing was released; or the control channel was obtained,
    the interrupt channel was not, and the control channel has been
    released and [ctrl_io] reset to NULL; or both channels were obtained,
    none was released, both handles hold them, the RPC handle is stored and
    the status is 0. *)
Theorem control_listener_never_alone :
  forall (E : extern) (conn : ptr) (g : globals),
    let r := server_start E conn g in
    let c := env_bt_l2cap_listen E BDADDR_ANY L2CAP_PSM_HIDP_CTRL in
    let i := env_bt_l2cap_listen E BDADDR_ANY L2CAP_PSM_HIDP_INTR in
    (c = NULL
     /\ opened E (trace r) = [] /\ released (trace r) = []
     /\ ctrl_io (final r) = NULL)
    \/ (c <> NULL /\ i = NULL
        /\ opened E (trace r) = [c] /\ released (trace r) = [c]
        /\ ctrl_io (final r) = NULL /\ intr_io (final r) = NULL)
    \/ (c <> NULL /\ i <> NULL
        /\ opened E (trace r) = [c; i] /\ released (trace r) = []
        /\ final r = mk_globals conn c i /\ result r = 0).
Proof.
  intros E conn g. cbv zeta. rewrite server_start_run. cbv zeta.
  destruct (is_null (env_bt_l2cap_listen E BDADDR_ANY L2CAP_PSM_HIDP_CTRL))
    eqn:Hc.
  - left. split; [exact (is_null_true _ Hc)|].
    unfold final, trace, released, opened. cbn. rewrite Hc.
    repeat split. exact (is_null_true _ Hc).
  - destruct (is_null (env_bt_l2cap_listen E BDADDR_ANY L2CAP_PSM_HIDP_INTR))
      eqn:Hi.
    + right; left.
      split; [exact (is_null_false _ Hc)|].
      split; [exact (is_null_true _ Hi)|].
      unfold final, trace, released, opened. cbn. rewrite Hc, Hi.
      repeat split. exact (is_null_true _ Hi).
    + right; right.
      split; [exact (is_null_false _ Hc)|].
      split; [exact (is_null_false _ Hi)|].
      unfold final, trace, released, opened, result. cbn. rewrite Hc, Hi.
      repeat split.
Qed.

(** X13.  Starting from globals with no listener handle, a start followed
    by a stop releases exactly the channels that the start obtained, each
    once, last opened first, whether both listeners opened, only the
    control listener did, or none. *)
Theorem start_stop_releases_what_was_opened :
  forall (E : extern) (conn k : ptr),
    let r := server_start E conn (mk_globals k NULL NULL) in
    released (trace r ++ trace (server_stop (final r)))
    = rev (opened E (trace r)).
Proof.
  intros E conn k. cbv zeta.
  rewrite server_stop_run, server_start_run. cbv zeta.
  destruct (is_null (env_bt_l2cap_listen E BDADDR_ANY L2CAP_PSM_HIDP_CTRL))
    eqn:Hc.
  - unfold final, trace, released, opened. cbn. rewrite !Hc. reflexivity.
  - destruct (is_null (env_bt_l2cap_listen E BDADDR_ANY L2CAP_PSM_HIDP_INTR))
      eqn:Hi.
    + unfold final, trace, released, opened. cbn. rewrite Hc, !Hi.
      reflexivity.
    + unfold final, trace, released, opened. cbn. rewrite !Hc, !Hi.
      reflexivity.
Qed.

(** X14.  Every listener [server_start] sets up hands accepted connections
    to [connect_event_cb] together with its own PSM, so the callback
    decodes exactly the PSM of the listener that accepted. *)
Theorem listeners_carry_their_psm :
  forall (E : extern) (conn : ptr) (g : globals),
    Forall listens_with_own_psm (trace (server_start E conn g)).
Proof.
  intros E conn g. rewrite server_start_run. cbv zeta.
  case_ifs; unfold trace; cbn [snd];
    repeat (constructor; try exact I; try (split; reflexivity)).
Qed.

(** X15.  The accept callback never completes a connection itself: what it
    decides on the spot is only to close, the socket when the registry
    refuses the channel, the pair's channels when an interrupt connection
    cannot be put up for authorization.  In every other case it decides
    nothing; [input_device_connadd] is left to the continuations. *)
Theorem accept_callback_outcomes :
  forall (E : extern) (chan : ptr) (err : Z) (src dst : bdaddr_t)
         (data : ptr) (g : globals),
    let psm := int_of_uint (GPOINTER_TO_UINT data) in
    let sk := env_g_io_channel_unix_get_fd E chan in
    outcomes (trace (connect_event_cb E chan err src dst data g))
    = if err <? 0 then []
      else if env_input_device_set_channel E src dst psm sk <? 0
      then [SocketClosed sk]
      else if (psm =? L2CAP_PSM_HIDP_INTR)
              && (result (authorize_device E src dst g) <? 0)
      then [ChannelsClosed src dst]
      else [].
Proof.
  intros E chan err src dst data g. cbv zeta.
  rewrite connect_event_cb_run. cbv zeta.
  destruct (err <? 0); [reflexivity|].
  destruct (env_input_device_set_channel E src dst _ _ <? 0).
  - destruct (_ =? L2CAP_PSM_HIDP_CTRL); reflexivity.
  - destruct (_ =? L2CAP_PSM_HIDP_INTR); [|reflexivity].
    rewrite authorize_device_run. cbv zeta.
    destruct (env_service_req_auth E src dst HID_UUID <? 0) eqn:Hp.
    + destruct (env_dbus_message_alloc E _);
        [destruct (env_dbus_connection_send_with_reply E _ _)|];
        reflexivity.
    + unfold trace, result, outcomes. cbn. rewrite Hp. reflexivity.
Qed.
